(** * The libc shim of c_libax: [srand], [rand] and [abort]

    A shallow embedding of [ulib/c_libax/src/stdlib.c].  The file forwards
    three C library entry points to the runtime library declared in
    [libax.h]:

<<
    void srand(unsigned s)      { ax_srand(s); }
    int rand(void)              { return ax_rand_u32(); }
    _Noreturn void abort(void)  { ax_panic(); __builtin_unreachable(); }
>>

    The runtime is not part of the file: it is a parameter of the model
    (class [Runtime]).  A C function is a computation over a [world]: the
    state owned by the runtime, the objects of the C side, and the log of
    the calls that crossed into the runtime. *)

From Stdlib Require Import ZArith List Lia Bool.
Import ListNotations.
Local Open Scope Z_scope.

(** ** C integers *)

(** [unsigned] and [uint32_t] are 32 bits wide, [int] is 32 bits wide and
    two's complement.  Values are integers of [Z]; conversions are written
    out. *)
Module CInt.

Definition is_uint32 (z : Z) : Prop := 0 <= z < 2 ^ 32.
Definition is_int (z : Z) : Prop := - 2 ^ 31 <= z < 2 ^ 31.

(** Conversion to [uint32_t]: the low 32 bits, that is reduction modulo
    [2^32]. *)
Definition to_uint32 (z : Z) : Z := Z.land z (Z.ones 32).

(** Conversion to [int], as [return e;] does in a function returning
    [int].  A value of the range of [int] is kept; for a value out of it
    the result is defined by the implementation, and the compilers the
    library is built with reduce it modulo [2^32] into the range of
    [int]. *)
Definition to_int (z : Z) : Z :=
  let m := to_uint32 z in
  if m <? 2 ^ 31 then m else m - 2 ^ 32.

(** The number a 32-bit pattern denotes when it is read as a two's
    complement integer: bits 0 to 30 count as they are, bit 31 counts
    [- 2^31]. *)
Definition twos_complement (u : Z) : Z :=
  Z.land u (Z.ones 31) - (if Z.testbit u 31 then 2 ^ 31 else 0).

End CInt.
Import CInt.

(** ** The runtime behind [libax.h] *)

(** Modelled from the spec: [libax.h], which declares the three entry
    points the shim calls, is not among the sources.  The specification
    names them the generator-seeding entry point, the generator of a random
    [u32] and the fatal-fault entry point; what they compute is left open,
    so it is a parameter.  [ax_srand] and [ax_rand_u32] are ordinary
    functions: they read and write state owned by the runtime and come
    back.  [ax_panic] comes back with [Some] state, or does not come back
    at all ([None]).  [ax_rand_u32] returns a [uint32_t]. *)
Class Runtime : Type := {
  ax_state : Type;
  ax_srand : Z -> ax_state -> ax_state;
  ax_rand_u32 : ax_state -> Z * ax_state;
  ax_panic : ax_state -> option ax_state;
  ax_rand_u32_range : forall st, is_uint32 (fst (ax_rand_u32 st))
}.

(** The contract of the panic entry point: it never returns. *)
Definition panic_never_returns (R : Runtime) : Prop :=
  forall st : ax_state, ax_panic st = None.

(** A call that crossed from the shim into the runtime; a call of the
    generator is logged with the value it produced. *)
Inductive ax_call : Type :=
| Call_ax_srand (seed : Z)
| Call_ax_rand_u32 (produced : Z)
| Call_ax_panic.

Section Shim.

Context {R : Runtime}.

(** The objects of the C side (the shim's own, had it any, and its
    callers'). *)
Context {G : Type}.

Record world : Type := mkWorld {
  rt : ax_state;
  globals : G;
  calls : list ax_call
}.

(** How the execution of a C function ends. *)
Inductive outcome (A : Type) : Type :=
| Returns (a : A) (w : world)   (* control is back at the caller *)
| NoReturn (w : world)          (* control never comes back *)
| Undefined (w : world).        (* [__builtin_unreachable()] was executed *)

Arguments Returns {A} a w.
Arguments NoReturn {A} w.
Arguments Undefined {A} w.

Definition M (A : Type) : Type := world -> outcome A.

Definition ret {A} (a : A) : M A := fun w => Returns a w.

Definition bind {A B} (c : M A) (k : A -> M B) : M B :=
  fun w =>
    match c w with
    | Returns a w' => k a w'
    | NoReturn w' => NoReturn w'
    | Undefined w' => Undefined w'
    end.

Notation "x <- c ;; k" := (bind c (fun x => k))
  (at level 61, c at next level, right associativity).
Notation "c ;; k" := (bind c (fun _ => k))
  (at level 61, right associativity).

(** *** Observations of an outcome *)

Definition returned {A} (o : outcome A) : option A :=
  match o with
  | Returns a _ => Some a
  | _ => None
  end.

Definition final {A} (o : outcome A) : world :=
  match o with
  | Returns _ w | NoReturn w | Undefined w => w
  end.

(** The calls an execution started in [w] added to the log. *)
Definition issued {A} (w : world) (o : outcome A) : list ax_call :=
  skipn (length (calls w)) (calls (final o)).

Definition returns {A} (o : outcome A) : bool :=
  match o with
  | Returns _ _ => true
  | _ => false
  end.

Definition diverges {A} (o : outcome A) : bool :=
  match o with
  | NoReturn _ => true
  | _ => false
  end.

Definition reaches_unreachable {A} (o : outcome A) : bool :=
  match o with
  | Undefined _ => true
  | _ => false
  end.

Definition map_outcome {A B} (f : A -> B) (o : outcome A) : outcome B :=
  match o with
  | Returns a w => Returns (f a) w
  | NoReturn w => NoReturn w
  | Undefined w => Undefined w
  end.

(** *** Calls into the runtime *)

Definition log (c : ax_call) (w : world) : list ax_call := calls w ++ [c].

(** [ax_srand(s)] *)
Definition call_ax_srand (s : Z) : M unit :=
  fun w =>
    Returns tt {| rt := ax_srand s (rt w);
                  globals := globals w;
                  calls := log (Call_ax_srand s) w |}.

(** [ax_rand_u32()] *)
Definition call_ax_rand_u32 : M Z :=
  fun w =>
    let (r, st) := ax_rand_u32 (rt w) in
    Returns r {| rt := st;
                 globals := globals w;
                 calls := log (Call_ax_rand_u32 r) w |}.

(** [ax_panic()] *)
Definition call_ax_panic : M unit :=
  fun w =>
    match ax_panic (rt w) with
    | Some st =>
        Returns tt {| rt := st;
                      globals := globals w;
                      calls := log Call_ax_panic w |}
    | None =>
        NoReturn {| rt := rt w;
                    globals := globals w;
                    calls := log Call_ax_panic w |}
    end.

(** [__builtin_unreachable()] *)
Definition builtin_unreachable {A} : M A := fun w => Undefined w.

(** *** The shim *)

(** [void srand(unsigned s) { ax_srand(s); }] *)
Definition srand (s : Z) : M unit :=
  call_ax_srand s.

(** [int rand(void) { return ax_rand_u32(); }] *)
Definition rand : M Z :=
  r <- call_ax_rand_u32 ;;
  ret (to_int r).

(** [_Noreturn void abort(void) { ax_panic(); __builtin_unreachable(); }] *)
Definition abort : M unit :=
  call_ax_panic ;;
  builtin_unreachable.

End Shim.

Arguments Returns {R G A} a w.
Arguments NoReturn {R G A} w.
Arguments Undefined {R G A} w.
Arguments world : clear implicits.
Arguments M : clear implicits.
Arguments outcome : clear implicits.

Notation "x <- c ;; k" := (bind c (fun x => k))
  (at level 61, c at next level, right associativity).
Notation "c ;; k" := (bind c (fun _ => k))
  (at level 61, right associativity).

(** ** Clients of the shim *)

Section Clients.

Context {R : Runtime} {G : Type}.

(** [srand(s); return rand();] *)
Definition seed_then_next (s : Z) : M R G Z :=
  srand s ;;
  rand.

(** The runtime called directly, as the specification words it: seed the
    generator with [s], then ask it for a number.
    [ax_srand(s); return ax_rand_u32();] with the [uint32_t] kept. *)
Definition direct_seed_then_next (s : Z) : M R G Z :=
  call_ax_srand s ;;
  call_ax_rand_u32.

(** [rand()] called [n] times in a row, the results in the order of the
    calls. *)
Fixpoint rand_times (n : nat) : M R G (list Z) :=
  match n with
  | O => ret []
  | S n' =>
      v <- rand ;;
      vs <- rand_times n' ;;
      ret (v :: vs)
  end.

(** [srand(s);] and then [rand()] called [n] times in a row. *)
Definition seed_then_times (s : Z) (n : nat) : M R G (list Z) :=
  srand s ;;
  rand_times n.

(** The generator of the runtime asked [n] times in a row from the state
    [st]: what it produced, and the state it is left in. *)
Fixpoint ax_rand_u32_times (n : nat) (st : ax_state) : list Z * ax_state :=
  match n with
  | O => ([], st)
  | S n' =>
      let (r, st1) := ax_rand_u32 st in
      let (rs, st2) := ax_rand_u32_times n' st1 in
      (r :: rs, st2)
  end.

End Clients.

(** ** Two runtimes to run the shim on *)

(** A generator that counts: seeding stores the seed, each request hands
    out the stored number (as a [uint32_t]) and steps to the next one.
    Its panic entry point keeps the contract. *)
Definition counting_rand_u32 (st : Z) : Z * Z := (to_uint32 st, st + 1).

Definition counting_rand_u32_range (st : Z) :
  is_uint32 (fst (counting_rand_u32 st)).
Proof.
  unfold is_uint32, counting_rand_u32, to_uint32, fst.
  rewrite Z.land_ones by discriminate.
  apply Z.mod_pos_bound. reflexivity.
Qed.

Definition counting_runtime : Runtime := {|
  ax_state := Z;
  ax_srand := fun s _ => s;
  ax_rand_u32 := counting_rand_u32;
  ax_panic := fun _ => None;
  ax_rand_u32_range := counting_rand_u32_range
|}.

(** The same generator over a panic entry point that breaks the contract
    and comes back. *)
Definition returning_runtime : Runtime := {|
  ax_state := Z;
  ax_srand := fun s _ => s;
  ax_rand_u32 := counting_rand_u32;
  ax_panic := fun st => Some st;
  ax_rand_u32_range := counting_rand_u32_range
|}.

(** A world to start from: the generator at [st], one C object holding
    [g], no call made yet. *)
Definition start (R : Runtime) (st : @ax_state R) (g : Z) : world R Z :=
  {| rt := st; globals := g; calls := [] |}.


(** * Facts *)

(** ** Conversions between [uint32_t] and [int] *)

Lemma pow2_32 : 2 ^ 32 = 4294967296.
Proof. reflexivity. Qed.

Lemma pow2_31 : 2 ^ 31 = 2147483648.
Proof. reflexivity. Qed.

Lemma to_uint32_mod z : to_uint32 z = z mod 2 ^ 32.
Proof. unfold to_uint32. apply Z.land_ones. discriminate. Qed.

Ltac unfold_cint :=
  unfold is_uint32, is_int, to_int in *;
  rewrite ?to_uint32_mod in *;
  rewrite ?pow2_32, ?pow2_31 in *.

Lemma to_uint32_range z : is_uint32 (to_uint32 z).
Proof.
  unfold_cint. pose proof (Z.mod_pos_bound z 4294967296 eq_refl). lia.
Qed.

Lemma to_uint32_id u : is_uint32 u -> to_uint32 u = u.
Proof.
  intros Hu. unfold_cint. apply Z.mod_small. lia.
Qed.

(** On a [uint32_t] the conversion to [int] is a case distinction on the
    top half of the range. *)
Lemma to_int_of_uint32 u :
  is_uint32 u -> to_int u = if u <? 2 ^ 31 then u else u - 2 ^ 32.
Proof.
  intros Hu. unfold_cint. rewrite Z.mod_small by lia. reflexivity.
Qed.

Lemma to_int_range z : is_int (to_int z).
Proof.
  unfold_cint. cbv zeta.
  pose proof (Z.mod_pos_bound z 4294967296 eq_refl).
  destruct (Z.ltb_spec (z mod 4294967296) 2147483648); lia.
Qed.

Lemma to_int_low u : 0 <= u < 2 ^ 31 -> to_int u = u.
Proof.
  intros Hu. rewrite pow2_31 in Hu.
  rewrite to_int_of_uint32 by (unfold_cint; lia).
  rewrite pow2_31. destruct (Z.ltb_spec u 2147483648); lia.
Qed.

Lemma to_int_high u : 2 ^ 31 <= u < 2 ^ 32 -> to_int u = u - 2 ^ 32.
Proof.
  intros Hu. rewrite pow2_31, pow2_32 in Hu.
  rewrite to_int_of_uint32 by (unfold_cint; lia).
  rewrite pow2_31. destruct (Z.ltb_spec u 2147483648); lia.
Qed.

Lemma to_int_negative u : 2 ^ 31 <= u < 2 ^ 32 -> to_int u < 0.
Proof.
  intros Hu. rewrite to_int_high by assumption.
  rewrite pow2_32 in *. lia.
Qed.

(** No bit is lost on the way: converting back gives the [uint32_t]. *)
Lemma to_uint32_to_int u : is_uint32 u -> to_uint32 (to_int u) = u.
Proof.
  intros Hu. rewrite to_int_of_uint32 by assumption.
  unfold_cint. destruct (Z.ltb_spec u 2147483648).
  - apply Z.mod_small. lia.
  - replace (u - 4294967296) with (u + (-1) * 4294967296) by lia.
    rewrite Z.mod_add by lia. apply Z.mod_small. lia.
Qed.

Lemma to_int_inj u v :
  is_uint32 u -> is_uint32 v -> to_int u = to_int v -> u = v.
Proof.
  intros Hu Hv E.
  rewrite <- (to_uint32_to_int u Hu), <- (to_uint32_to_int v Hv).
  now rewrite E.
Qed.

Example to_int_at_the_bounds :
  to_int 0 = 0 /\
  to_int 2147483647 = 2147483647 /\
  to_int 2147483648 = -2147483648 /\
  to_int 4294967295 = -1.
Proof. vm_compute. repeat split. Qed.

(** Bit 31 of a [uint32_t] is set exactly on the top half of the range. *)
Lemma testbit_31_of_uint32 u :
  is_uint32 u -> Z.testbit u 31 = negb (u <? 2 ^ 31).
Proof.
  intros Hu. unfold_cint.
  rewrite Z.testbit_eqb by lia. rewrite pow2_31.
  destruct (Z.ltb_spec u 2147483648) as [Hlt | Hge]; cbn [negb].
  - rewrite Z.div_small by lia. reflexivity.
  - replace (u / 2147483648) with 1; [reflexivity |].
    apply Z.div_unique with (r := u - 2147483648); lia.
Qed.

(** The conversion to [int] reads the same 32 bits in two's complement. *)
Lemma to_int_twos_complement u :
  is_uint32 u -> to_int u = twos_complement u.
Proof.
  intros Hu. unfold twos_complement.
  rewrite to_int_of_uint32, testbit_31_of_uint32 by assumption.
  rewrite Z.land_ones by lia.
  unfold_cint.
  destruct (Z.ltb_spec u 2147483648) as [Hlt | Hge]; cbn [negb].
  - rewrite Z.mod_small by lia. lia.
  - replace u with ((u - 2147483648) + 1 * 2147483648) at 2 by lia.
    rewrite Z.mod_add by lia. rewrite Z.mod_small by lia. lia.
Qed.

(** ** The monad of executions *)

Section MonadFacts.

Context {R : Runtime} {G : Type}.

Lemma bind_ret_l {A B} (a : A) (k : A -> M R G B) (w : world R G) :
  (x <- ret a ;; k x) w = k a w.
Proof. reflexivity. Qed.

Lemma bind_ret_r {A} (c : M R G A) (w : world R G) :
  (x <- c ;; ret x) w = c w.
Proof. unfold bind, ret. destruct (c w); reflexivity. Qed.

Lemma bind_assoc {A B C} (c : M R G A) (k : A -> M R G B) (h : B -> M R G C)
    (w : world R G) :
  (y <- (x <- c ;; k x) ;; h y) w = (x <- c ;; y <- k x ;; h y) w.
Proof. unfold bind. destruct (c w); reflexivity. Qed.

Lemma bind_returns {A B} (c : M R G A) (k : A -> M R G B) w a w' :
  c w = Returns a w' -> (x <- c ;; k x) w = k a w'.
Proof. intros E. unfold bind. rewrite E. reflexivity. Qed.

Lemma bind_noreturn {A B} (c : M R G A) (k : A -> M R G B) w w' :
  c w = NoReturn w' -> (x <- c ;; k x) w = NoReturn w'.
Proof. intros E. unfold bind. rewrite E. reflexivity. Qed.

Lemma issued_app {A} (w : world R G) (o : outcome R G A) cs :
  calls (final o) = calls w ++ cs -> issued w o = cs.
Proof.
  intros E. unfold issued. rewrite E.
  rewrite skipn_app, skipn_all, Nat.sub_diag. reflexivity.
Qed.

End MonadFacts.

(** ** What one call of the shim does *)

Section ShimFacts.

Context {R : Runtime} {G : Type}.

Implicit Types (w : world R G) (s : Z).

Lemma srand_run s w :
  srand s w =
  Returns tt {| rt := ax_srand s (rt w);
                globals := globals w;
                calls := calls w ++ [Call_ax_srand s] |}.
Proof. reflexivity. Qed.

Lemma call_ax_rand_u32_run w :
  call_ax_rand_u32 w =
  Returns (fst (ax_rand_u32 (rt w)))
          {| rt := snd (ax_rand_u32 (rt w));
             globals := globals w;
             calls := calls w ++ [Call_ax_rand_u32 (fst (ax_rand_u32 (rt w)))] |}.
Proof.
  unfold call_ax_rand_u32, log. destruct (ax_rand_u32 (rt w)); reflexivity.
Qed.

Lemma rand_run w :
  rand w =
  Returns (to_int (fst (ax_rand_u32 (rt w))))
          {| rt := snd (ax_rand_u32 (rt w));
             globals := globals w;
             calls := calls w ++ [Call_ax_rand_u32 (fst (ax_rand_u32 (rt w)))] |}.
Proof.
  unfold rand. rewrite (bind_returns _ _ _ _ _ (call_ax_rand_u32_run w)).
  reflexivity.
Qed.

Lemma abort_run_panic_diverges w :
  ax_panic (rt w) = None ->
  abort w =
  NoReturn {| rt := rt w;
              globals := globals w;
              calls := calls w ++ [Call_ax_panic] |}.
Proof.
  intros E. unfold abort, bind, call_ax_panic. rewrite E. reflexivity.
Qed.

Lemma abort_run_panic_returns w st :
  ax_panic (rt w) = Some st ->
  abort w =
  Undefined {| rt := st;
               globals := globals w;
               calls := calls w ++ [Call_ax_panic] |}.
Proof.
  intros E. unfold abort, bind, call_ax_panic. rewrite E. reflexivity.
Qed.



End ShimFacts.

(** ** Calls in a row *)

Section RowFacts.

Context {R : Runtime} {G : Type}.

Implicit Types (w : world R G) (st : ax_state).

Lemma ax_rand_u32_times_length n st :
  length (fst (ax_rand_u32_times n st)) = n.
Proof.
  revert st. induction n as [| n IH]; intros st; cbn [ax_rand_u32_times].
  - reflexivity.
  - destruct (ax_rand_u32 st) as [r st1].
    specialize (IH st1). destruct (ax_rand_u32_times n st1) as [rs st2].
    cbn [fst length] in *. now rewrite IH.
Qed.

Lemma ax_rand_u32_times_range n st :
  Forall is_uint32 (fst (ax_rand_u32_times n st)).
Proof.
  revert st. induction n as [| n IH]; intros st; cbn [ax_rand_u32_times].
  - constructor.
  - pose proof (ax_rand_u32_range st) as Hr.
    destruct (ax_rand_u32 st) as [r st1].
    specialize (IH st1). destruct (ax_rand_u32_times n st1) as [rs st2].
    cbn [fst] in *. now constructor.
Qed.

(** [n] calls of [rand] are [n] calls of the generator, one after the
    other on the state the previous one left, each result converted. *)
Lemma rand_times_run n w :
  rand_times n w =
  Returns (map to_int (fst (ax_rand_u32_times n (rt w))))
          {| rt := snd (ax_rand_u32_times n (rt w));
             globals := globals w;
             calls := calls w
                      ++ map Call_ax_rand_u32 (fst (ax_rand_u32_times n (rt w))) |}.
Proof.
  revert w. induction n as [| n IH]; intros w.
  - destruct w as [st g cs]. cbn. rewrite app_nil_r. reflexivity.
  - cbn [rand_times].
    rewrite (bind_returns _ _ _ _ _ (rand_run w)).
    rewrite (bind_returns _ _ _ _ _ (IH _)).
    cbn [ax_rand_u32_times rt globals calls].
    destruct (ax_rand_u32 (rt w)) as [r st1]. cbn [fst snd].
    destruct (ax_rand_u32_times n st1) as [rs st2]. cbn [fst snd map].
    unfold ret. rewrite <- app_assoc. reflexivity.
Qed.

(** Three calls in a row over the counting generator, across the bound of
    [int]: three values, three calls, none served twice. *)
Example rand_times_counting :
  returned (rand_times 3 (start counting_runtime 2147483647 0))
    = Some [2147483647; -2147483648; -2147483647] /\
  calls (final (rand_times 3 (start counting_runtime 2147483647 0)))
    = [Call_ax_rand_u32 2147483647; Call_ax_rand_u32 2147483648;
       Call_ax_rand_u32 2147483649].
Proof. vm_compute. split; reflexivity. Qed.

End RowFacts.

Create Rewrite HintDb shim_run.
#[export] Hint Rewrite @srand_run @rand_run @rand_times_run : shim_run.

(** The calls an execution issued, read off the equation of its run. *)
Ltac issued_by_run :=
  apply issued_app; autorewrite with shim_run; reflexivity.

(** * The specification, claim by claim *)

(** ** [rand] *)

(** C1, as the code has it: [rand] returns the value [ax_rand_u32]
    produced converted to [int], the return type of [rand].  The 32 bits
    are the runtime's (converting back to [uint32_t] gives the produced
    value, so nothing is truncated), and the number is the runtime's when
    it is below [2^31]; from [2^31] on it is the produced value minus
    [2^32]. *)
Theorem rand_returns_runtime_value_as_int {R : Runtime} {G : Type}
    (w : world R G) :
  let r := fst (ax_rand_u32 (rt w)) in
  returned (rand w) = Some (to_int r) /\
  to_uint32 (to_int r) = r /\
  to_int r = (if r <? 2 ^ 31 then r else r - 2 ^ 32).
Proof.
  intros r. pose proof (ax_rand_u32_range (rt w)) as Hr. fold r in Hr.
  rewrite rand_run. fold r. repeat split.
  - now apply to_uint32_to_int.
  - now apply to_int_of_uint32.
Qed.

(** C1, as stated, fails: when the generator of the runtime produces
    [4294967295], [rand] returns [-1], which is not the value produced. *)
Lemma rand_not_verbatim :
  let w := start counting_runtime 4294967295 0 in
  fst (ax_rand_u32 (rt w)) = 4294967295 /\
  returned (rand w) = Some (-1) /\
  returned (rand w) <> Some (fst (ax_rand_u32 (rt w))).
Proof.
  cbv zeta. split; [| split].
  - vm_compute. reflexivity.
  - vm_compute. reflexivity.
  - vm_compute. discriminate.
Qed.

(** C9: the value [rand] returns is the 32-bit pattern of the produced
    [uint32_t] read in two's complement; when the produced value is at
    least [2^31], [rand] returns that value minus [2^32], a negative
    number. *)
Theorem rand_reinterprets_as_signed {R : Runtime} {G : Type} (w : world R G) :
  let r := fst (ax_rand_u32 (rt w)) in
  returned (rand w) = Some (twos_complement r) /\
  (2 ^ 31 <= r ->
   exists v, returned (rand w) = Some v /\ v = r - 2 ^ 32 /\ v < 0).
Proof.
  intros r. pose proof (ax_rand_u32_range (rt w)) as Hr. fold r in Hr.
  rewrite rand_run. fold r. cbn [returned]. split.
  - f_equal. now apply to_int_twos_complement.
  - intros Hhigh. exists (to_int r).
    assert (2 ^ 31 <= r < 2 ^ 32) as Hb by (unfold_cint; lia).
    split; [reflexivity | split].
    + now apply to_int_high.
    + now apply to_int_negative.
Qed.

Lemma rand_reinterprets_as_signed_witness :
  2 ^ 31 <= 2147483648 /\
  exists v,
    returned (rand (start counting_runtime 2147483648 0)) = Some v /\
    v = 2147483648 - 2 ^ 32 /\ v < 0.
Proof.
  split.
  - vm_compute. discriminate.
  - apply (proj2 (rand_reinterprets_as_signed
                    (start counting_runtime 2147483648 0))).
    vm_compute. discriminate.
Defined.

(** C5: [srand] and [rand] have no error path.  For every argument and
    from every world, [srand] returns to its caller (with no value) and
    [rand] returns to its caller with a result, an [int]. *)
Theorem srand_rand_cannot_fail {R : Runtime} {G : Type} (s : Z)
    (w : world R G) :
  returns (srand s w) = true /\
  returned (srand s w) = Some tt /\
  returns (rand w) = true /\
  exists v, returned (rand w) = Some v /\ is_int v.
Proof.
  rewrite srand_run, rand_run. cbn [returns returned].
  repeat split. eexists. split; [reflexivity | apply to_int_range].
Qed.

(** ** [srand] *)

(** C4: [srand s] makes the call [ax_srand(s)] with the [s] it received,
    for every [s], and returns no value: the runtime is left in the state
    [ax_srand s] gives, and the call logged carries [s] itself. *)
Theorem srand_forwards_seed {R : Runtime} {G : Type} (s : Z) (w : world R G) :
  srand s w =
    Returns tt {| rt := ax_srand s (rt w);
                  globals := globals w;
                  calls := calls w ++ [Call_ax_srand s] |} /\
  issued w (srand s w) = [Call_ax_srand s].
Proof.
  split; [apply srand_run | issued_by_run].
Qed.

(** C2, as the code has it: [srand(s); rand()] makes the calls of
    [ax_srand(s); ax_rand_u32()] and leaves the same world, and returns
    the result of the direct call converted to [int]: the same 32 bits
    (equal once converted back to [uint32_t]), and the same number when
    that result is below [2^31]. *)
Theorem seed_then_next_matches_runtime {R : Runtime} {G : Type} (s : Z)
    (w : world R G) :
  seed_then_next s w = map_outcome to_int (direct_seed_then_next s w) /\
  final (seed_then_next s w) = final (direct_seed_then_next s w) /\
  option_map to_uint32 (returned (seed_then_next s w))
    = returned (direct_seed_then_next s w) /\
  returned (seed_then_next s w)
    = option_map (fun r => if r <? 2 ^ 31 then r else r - 2 ^ 32)
                 (returned (direct_seed_then_next s w)).
Proof.
  unfold seed_then_next, direct_seed_then_next.
  rewrite (bind_returns _ _ _ _ _ (srand_run s w)).
  rewrite (bind_returns _ _ _ _ _ (srand_run s w : call_ax_srand s w = _)).
  rewrite rand_run, call_ax_rand_u32_run.
  cbn [map_outcome final returned option_map rt globals calls].
  pose proof (ax_rand_u32_range (ax_srand s (rt w))) as Hr.
  repeat split; f_equal.
  - now apply to_uint32_to_int.
  - now apply to_int_of_uint32.
Qed.

(** C2, as stated, fails: seeded with [4294967295], the counting
    generator produces [4294967295]; the direct call yields that number,
    [srand] followed by [rand] yields [-1]. *)
Lemma seed_then_next_differs :
  let w := start counting_runtime 0 0 in
  returned (direct_seed_then_next 4294967295 w) = Some 4294967295 /\
  returned (seed_then_next 4294967295 w) = Some (-1) /\
  returned (seed_then_next 4294967295 w)
    <> returned (direct_seed_then_next 4294967295 w).
Proof.
  cbv zeta. split; [| split].
  - vm_compute. reflexivity.
  - vm_compute. reflexivity.
  - vm_compute. discriminate.
Qed.

(** ** [abort] *)

(** C3: when the panic entry point of the runtime never returns, no
    execution of [abort] returns control to its caller: every execution
    diverges inside the one call [ax_panic()], and neither the marker after
    the call nor the end of the function is reached. *)
Theorem abort_never_returns {R : Runtime} {G : Type} :
  panic_never_returns R ->
  forall w : world R G,
    diverges (abort w) = true /\
    returns (abort w) = false /\
    reaches_unreachable (abort w) = false /\
    issued w (abort w) = [Call_ax_panic].
Proof.
  intros Hpanic w.
  pose proof (abort_run_panic_diverges w (Hpanic (rt w))) as E.
  split; [| split; [| split]].
  - rewrite E. reflexivity.
  - rewrite E. reflexivity.
  - rewrite E. reflexivity.
  - apply issued_app. rewrite E. reflexivity.
Qed.

Lemma abort_never_returns_witness :
  panic_never_returns counting_runtime /\
  diverges (abort (start counting_runtime 0 0)) = true /\
  returns (abort (start counting_runtime 0 0)) = false /\
  reaches_unreachable (abort (start counting_runtime 0 0)) = false /\
  issued (start counting_runtime 0 0) (abort (start counting_runtime 0 0))
    = [Call_ax_panic].
Proof.
  split.
  - intros st. reflexivity.
  - apply (@abort_never_returns counting_runtime Z).
    intros st. reflexivity.
Defined.

(** C6: when the panic entry point of the runtime never returns, the
    program point of [__builtin_unreachable()] in [abort] is reached in no
    execution of [abort]. *)
Theorem unreachable_marker_is_never_reached {R : Runtime} {G : Type} :
  panic_never_returns R ->
  forall w : world R G,
    reaches_unreachable (abort w) = false /\
    forall w' : world R G, abort w <> Undefined w'.
Proof.
  intros Hpanic w.
  rewrite (abort_run_panic_diverges w (Hpanic (rt w))).
  split; [reflexivity | discriminate].
Qed.

Lemma unreachable_marker_is_never_reached_witness :
  panic_never_returns counting_runtime /\
  reaches_unreachable (abort (start counting_runtime 7 1)) = false /\
  forall w' : world counting_runtime Z,
    abort (start counting_runtime 7 1) <> Undefined w'.
Proof.
  split.
  - intros st. reflexivity.
  - apply (@unreachable_marker_is_never_reached counting_runtime Z).
    intros st. reflexivity.
Defined.

(** The precondition of C3 and C6 is needed: over a panic entry point that
    comes back, [abort] runs into the marker. *)
Example abort_over_returning_panic :
  reaches_unreachable (abort (start returning_runtime 0 0)) = true.
Proof. reflexivity. Qed.

(** ** The shim as a whole *)

(** C7: the shim keeps no state of its own.  A call of [srand] changes
    the state of the runtime, by [ax_srand], and leaves the objects of the
    C side as they were; so does [rand], by [ax_rand_u32]; and [abort]
    leaves them as they were too. *)
Theorem shim_owns_no_state {R : Runtime} {G : Type} (s : Z) (w : world R G) :
  globals (final (srand s w)) = globals w /\
  rt (final (srand s w)) = ax_srand s (rt w) /\
  globals (final (rand w)) = globals w /\
  rt (final (rand w)) = snd (ax_rand_u32 (rt w)) /\
  globals (final (abort w)) = globals w.
Proof.
  rewrite srand_run, rand_run. cbn [final globals rt].
  do 4 (split; [reflexivity |]).
  destruct (ax_panic (rt w)) as [st |] eqn:E.
  - rewrite (abort_run_panic_returns w st E). reflexivity.
  - rewrite (abort_run_panic_diverges w E). reflexivity.
Qed.

(** C8: one call of [srand] is one call of [ax_srand], one call of [rand]
    is one call of [ax_rand_u32], and nothing is kept from one call to the
    next: [n] calls of [rand] in a row make [n] calls of [ax_rand_u32],
    and the [k]-th result is the [k]-th value the generator produced. *)
Theorem one_runtime_call_per_call {R : Runtime} {G : Type} (s : Z) (n : nat)
    (w : world R G) :
  issued w (srand s w) = [Call_ax_srand s] /\
  issued w (rand w) = [Call_ax_rand_u32 (fst (ax_rand_u32 (rt w)))] /\
  returned (rand_times n w)
    = Some (map to_int (fst (ax_rand_u32_times n (rt w)))) /\
  issued w (rand_times n w)
    = map Call_ax_rand_u32 (fst (ax_rand_u32_times n (rt w))) /\
  length (issued w (rand_times n w)) = n.
Proof.
  assert (issued w (rand_times n w)
          = map Call_ax_rand_u32 (fst (ax_rand_u32_times n (rt w)))) as En.
  { issued_by_run. }
  split; [| split; [| split; [| split]]].
  - issued_by_run.
  - issued_by_run.
  - rewrite rand_times_run. reflexivity.
  - exact En.
  - rewrite En, length_map. apply ax_rand_u32_times_length.
Qed.

(** C10: the shim adds no choice of its own.  Take two executions, over
    any two runtimes and from any two worlds.  When [ax_rand_u32] produces
    the same value in both, [rand] returns the same value in both and logs
    the same call; and for the same argument, [srand] returns the same and
    makes the same call in both. *)
Theorem shim_is_deterministic (R1 R2 : Runtime) (G1 G2 : Type)
    (w1 : world R1 G1) (w2 : world R2 G2) (s : Z) :
  fst (ax_rand_u32 (rt w1)) = fst (ax_rand_u32 (rt w2)) ->
  returned (rand w1) = returned (rand w2) /\
  issued w1 (rand w1) = issued w2 (rand w2) /\
  returned (srand s w1) = returned (srand s w2) /\
  issued w1 (srand s w1) = issued w2 (srand s w2).
Proof.
  intros E.
  assert (issued w1 (rand w1) = [Call_ax_rand_u32 (fst (ax_rand_u32 (rt w1)))])
    as E1 by issued_by_run.
  assert (issued w2 (rand w2) = [Call_ax_rand_u32 (fst (ax_rand_u32 (rt w2)))])
    as E2 by issued_by_run.
  split; [| split; [| split]].
  - rewrite !rand_run. cbn [returned]. now rewrite E.
  - now rewrite E1, E2, E.
  - reflexivity.
  - transitivity [Call_ax_srand s]; [| symmetry]; issued_by_run.
Qed.

Lemma shim_is_deterministic_witness :
  fst (ax_rand_u32 (rt (start counting_runtime 5 1)))
    = fst (ax_rand_u32 (rt (start returning_runtime 4294967301 2))) /\
  returned (rand (start counting_runtime 5 1))
    = returned (rand (start returning_runtime 4294967301 2)) /\
  issued (start counting_runtime 5 1) (rand (start counting_runtime 5 1))
    = issued (start returning_runtime 4294967301 2)
             (rand (start returning_runtime 4294967301 2)) /\
  returned (srand 9 (start counting_runtime 5 1))
    = returned (srand 9 (start returning_runtime 4294967301 2)) /\
  issued (start counting_runtime 5 1) (srand 9 (start counting_runtime 5 1))
    = issued (start returning_runtime 4294967301 2)
             (srand 9 (start returning_runtime 4294967301 2)).
Proof.
  split.
  - vm_compute. reflexivity.
  - apply (shim_is_deterministic counting_runtime returning_runtime Z Z).
    vm_compute. reflexivity.
Defined.

(** * Further properties of the three functions *)

(** ** More on the conversion at [return] *)

(** The conversion keeps a [uint32_t] as it is exactly on the lower half
    of the range. *)
Lemma to_int_fixed_iff u : is_uint32 u -> (to_int u = u <-> u < 2 ^ 31).
Proof.
  intros Hu. rewrite to_int_of_uint32 by assumption.
  unfold_cint. destruct (Z.ltb_spec u 2147483648); lia.
Qed.

Lemma to_int_nonneg_iff u : is_uint32 u -> (0 <= to_int u <-> u < 2 ^ 31).
Proof.
  intros Hu. rewrite to_int_of_uint32 by assumption.
  unfold_cint. destruct (Z.ltb_spec u 2147483648); lia.
Qed.

Lemma map_to_uint32_to_int us :
  Forall is_uint32 us -> map to_uint32 (map to_int us) = us.
Proof.
  induction 1 as [| u us Hu _ IH]; cbn [map].
  - reflexivity.
  - now rewrite to_uint32_to_int, IH.
Qed.

Lemma Forall_is_int_to_int us : Forall is_int (map to_int us).
Proof.
  induction us as [| u us IH]; cbn [map]; constructor.
  - apply to_int_range.
  - exact IH.
Qed.

Section FurtherFacts.

Context {R : Runtime} {G : Type}.

Implicit Types (w : world R G) (s : Z).



Lemma seed_then_times_run s n w :
  seed_then_times s n w =
  Returns (map to_int (fst (ax_rand_u32_times n (ax_srand s (rt w)))))
          {| rt := snd (ax_rand_u32_times n (ax_srand s (rt w)));
             globals := globals w;
             calls := calls w
                      ++ Call_ax_srand s
                         :: map Call_ax_rand_u32
                              (fst (ax_rand_u32_times n (ax_srand s (rt w)))) |}.
Proof.
  unfold seed_then_times.
  rewrite (bind_returns _ _ _ _ _ (srand_run s w)).
  rewrite rand_times_run. cbn [rt globals calls].
  rewrite <- app_assoc. reflexivity.
Qed.

End FurtherFacts.

(** ** [abort], whatever the runtime does *)



(** ** [rand] and the value the generator produced *)

(** X3: [rand] maps different produced values to different results.  In
    any two executions, over any two runtimes, [rand] returns the same
    [int] exactly when [ax_rand_u32] produced the same [uint32_t]. *)
Theorem rand_results_agree_iff (R1 R2 : Runtime) (G1 G2 : Type)
    (w1 : world R1 G1) (w2 : world R2 G2) :
  returned (rand w1) = returned (rand w2) <->
  fst (ax_rand_u32 (rt w1)) = fst (ax_rand_u32 (rt w2)).
Proof.
  rewrite !rand_run. cbn [returned]. split.
  - intros E. injection E as E.
    apply to_int_inj; [apply ax_rand_u32_range .. | exact E].
  - intros E. now rewrite E.
Qed.

(** X4: [rand] returns the produced value itself exactly when that value
    is below [2^31], and exactly then its result is not negative. *)
Theorem rand_verbatim_iff {R : Runtime} {G : Type} (w : world R G) :
  let r := fst (ax_rand_u32 (rt w)) in
  (returned (rand w) = Some r <-> r < 2 ^ 31) /\
  ((exists v, returned (rand w) = Some v /\ 0 <= v) <-> r < 2 ^ 31).
Proof.
  intros r. pose proof (ax_rand_u32_range (rt w)) as Hr. fold r in Hr.
  rewrite rand_run. fold r. cbn [returned].
  rewrite <- (to_int_fixed_iff r Hr) at 1.
  rewrite <- (to_int_nonneg_iff r Hr).
  split; split.
  - intros E. now injection E.
  - intros E. now rewrite E.
  - intros (v & E & Hv). injection E as E. now rewrite E.
  - intros Hv. now exists (to_int r).
Qed.

(** ** Calls in a row, again *)

(** X5: [n] calls of [rand] return [n] values, each an [int], and
    converting each back to [uint32_t] gives the values the generator
    produced, in the order it produced them. *)
Theorem rand_times_round_trip {R : Runtime} {G : Type} (n : nat)
    (w : world R G) :
  option_map (map to_uint32) (returned (rand_times n w))
    = Some (fst (ax_rand_u32_times n (rt w))) /\
  exists vs,
    returned (rand_times n w) = Some vs /\
    length vs = n /\
    Forall is_int vs.
Proof.
  rewrite rand_times_run. cbn [returned option_map]. split.
  - f_equal. apply map_to_uint32_to_int, ax_rand_u32_times_range.
  - eexists. split; [reflexivity | split].
    + rewrite length_map. apply ax_rand_u32_times_length.
    + apply Forall_is_int_to_int.
Qed.

(** X6: the shim carries nothing from before a seeding over to after it.
    When [ax_srand s] takes the runtime to the same state from the states
    of two worlds, [srand(s)] followed by [n] calls of [rand] returns the
    same [n] values in both, leaves the runtime in the same state, and
    makes the same calls, whatever was called before and whatever the C
    side holds. *)
Theorem same_seed_same_sequence {R : Runtime} {G1 G2 : Type} (s : Z)
    (n : nat) (w1 : world R G1) (w2 : world R G2) :
  ax_srand s (rt w1) = ax_srand s (rt w2) ->
  returned (seed_then_times s n w1) = returned (seed_then_times s n w2) /\
  rt (final (seed_then_times s n w1)) = rt (final (seed_then_times s n w2)) /\
  issued w1 (seed_then_times s n w1) = issued w2 (seed_then_times s n w2).
Proof.
  intros E.
  assert (forall G (w : world R G),
             issued w (seed_then_times s n w)
             = Call_ax_srand s
               :: map Call_ax_rand_u32
                    (fst (ax_rand_u32_times n (ax_srand s (rt w))))) as Hi.
  { intros G w. apply issued_app. rewrite seed_then_times_run. reflexivity. }
  rewrite !Hi, !seed_then_times_run. cbn [returned final rt].
  rewrite E. repeat split.
Qed.

Lemma same_seed_same_sequence_witness :
  ax_srand 7 (rt (start counting_runtime 3 0))
    = ax_srand 7 (rt (start counting_runtime 100 1)) /\
  returned (seed_then_times 7 3 (start counting_runtime 3 0))
    = returned (seed_then_times 7 3 (start counting_runtime 100 1)) /\
  rt (final (seed_then_times 7 3 (start counting_runtime 3 0)))
    = rt (final (seed_then_times 7 3 (start counting_runtime 100 1))) /\
  issued (start counting_runtime 3 0)
         (seed_then_times 7 3 (start counting_runtime 3 0))
    = issued (start counting_runtime 100 1)
             (seed_then_times 7 3 (start counting_runtime 100 1)).
Proof.
  split.
  - reflexivity.
  - apply (@same_seed_same_sequence counting_runtime Z Z 7 3).
    reflexivity.
Defined.
